(** * yaml_utils: loading calibration data from a parsed YAML document

    A shallow embedding of [src/yaml_utils.py].  The functions of that
    module all start with [configs = load_configs(file_path)], i.e. with the
    Python object that [yaml.safe_load] produced; the embedding starts from
    that object.  Python exceptions are made explicit in the [outcome] type,
    numbers are binary64 floats and integers as in Python and numpy. *)

From Stdlib Require Import ZArith.
From Stdlib Require Import PrimFloat FloatOps SpecFloat.
From stdpp Require Import gmap strings list fin_maps.

#[local] Set Warnings "-register-all".

(** ** Parsed YAML values

    What [yaml.safe_load] returns: [None], booleans, integers, floats,
    strings, lists and dictionaries.  Dictionaries are keyed by strings. *)

Inductive yaml : Type :=
  | YNull
  | YBool (b : bool)
  | YInt (z : Z)
  | YFloat (f : float)
  | YStr (s : string)
  | YSeq (l : list yaml)
  | YMap (m : gmap string yaml).

(** ** Outcomes of a call

    A call returns a value or raises one of the exceptions below.
    [Unmodelled] marks the inputs on which the embedding does not follow
    numpy (data that is not a flat list of numbers, integers outside the
    int64 range): nothing is claimed about the code there. *)

Inductive exn : Type :=
  | KeyError
  | ValueError
  | TypeError
  | AttributeError
  | IndexError.

Inductive outcome (A : Type) : Type :=
  | Return (a : A)
  | Raise (e : exn)
  | Unmodelled.

Arguments Return {A} a.
Arguments Raise {A} e.
Arguments Unmodelled {A}.

Definition bind {A B : Type} (c : outcome A) (k : A -> outcome B) : outcome B :=
  match c with
  | Return a => k a
  | Raise e => Raise e
  | Unmodelled => Unmodelled
  end.

Notation "x <- c ;; k" := (bind c (fun x => k))
  (at level 100, c at next level, right associativity).

(** ** Python operators on parsed values *)

Module Py.

(** [needle in hay] for two strings: substring test. *)
Fixpoint str_contains (needle hay : string) : bool :=
  String.prefix needle hay ||
  match hay with
  | EmptyString => false
  | String _ rest => str_contains needle rest
  end.

Definition is_str (k : string) (v : yaml) : bool :=
  match v with
  | YStr s => bool_decide (s = k)
  | _ => false
  end.

(** [k in v] for a string [k]: key test on a dictionary, element test on a
    list, substring test on a string; the other values are not iterable. *)
Definition contains (k : string) (v : yaml) : outcome bool :=
  match v with
  | YMap m => Return (bool_decide (is_Some (m !! k)))
  | YSeq l => Return (existsb (is_str k) l)
  | YStr s => Return (str_contains k s)
  | YNull | YBool _ | YInt _ | YFloat _ => Raise TypeError
  end.

(** [v[k]] for a string [k]: only a dictionary can be indexed by a string. *)
Definition getitem (v : yaml) (k : string) : outcome yaml :=
  match v with
  | YMap m =>
      match m !! k with
      | Some x => Return x
      | None => Raise KeyError
      end
  | _ => Raise TypeError
  end.

(** [v.get(k, d)]: only dictionaries have the method. *)
Definition get (v : yaml) (k : string) (d : yaml) : outcome yaml :=
  match v with
  | YMap m => Return (default d (m !! k))
  | _ => Raise AttributeError
  end.

End Py.

(** ** Arrays of numbers

    numpy is a library that the module imports; it is not part of the
    repository.  The spec describes its results as numeric vectors and
    matrices.  An array is a list of numbers of one dtype (int64 or float64)
    here, a matrix a list of rows. *)

(** Modelled from the spec: the entries of a numeric array, which numpy
    (not in the repository) holds as int64 or float64. *)
Inductive num : Type :=
  | NInt (z : Z)
  | NFloat (f : float).

(** Modelled from the spec: numpy's cast of an int64 to float64, the
    nearest binary64 number, ties to even. *)
Definition float_of_Z (z : Z) : float :=
  SF2Prim (binary_normalize prec emax z 0 false).

(** Modelled from the spec: numpy's [astype(float)] on one entry. *)
Definition to_float (x : num) : float :=
  match x with
  | NInt z => float_of_Z z
  | NFloat f => f
  end.

(** Modelled from the spec: whether the entry is held as float64. *)
Definition is_float (x : num) : bool :=
  match x with
  | NFloat _ => true
  | NInt _ => false
  end.

(** Modelled from the spec: the range of numpy's int64. *)
Definition in_int64 (z : Z) : bool :=
  ((- 2 ^ 63 <=? z) && (z <? 2 ^ 63))%Z.

(** Modelled from the spec: the parsed values that numpy turns into
    numeric entries.  Integers outside int64 and values that are not numbers
    are left out of the model. *)
Definition as_num (v : yaml) : outcome num :=
  match v with
  | YInt z => if in_int64 z then Return (NInt z) else Unmodelled
  | YFloat f => Return (NFloat f)
  | _ => Unmodelled
  end.

(** Modelled from the spec: the entries of a flat Python list, as numpy
    reads them. *)
Fixpoint as_nums (l : list yaml) : outcome (list num) :=
  match l with
  | [] => Return []
  | v :: l' => x <- as_num v ;; xs <- as_nums l' ;; Return (x :: xs)
  end.

(** Modelled from the spec: numpy's cast to the common dtype of the entries
    [all], float64 as soon as one of them is a float. *)
Definition cast (all : list num) (x : num) : num :=
  if existsb is_float all then NFloat (to_float x) else x.

(** Modelled from the spec: numpy's array of the numbers [xs], and the
    two-dimensional one of the rows [xss], each in its common dtype. *)
Definition promote1 (xs : list num) : list num :=
  cast xs <$> xs.

Definition promote2 (xss : list (list num)) : list (list num) :=
  (fun xs : list num => cast (concat xss) <$> xs) <$> xss.

(** Modelled from the spec: numpy's [np.array([v0, v1, ...])]. *)
Definition np_array1 (l : list yaml) : outcome (list num) :=
  xs <- as_nums l ;; Return (promote1 xs).

(** Modelled from the spec: the entries of a Python list of rows, as numpy
    reads them. *)
Fixpoint as_rows (ll : list (list yaml)) : outcome (list (list num)) :=
  match ll with
  | [] => Return []
  | l :: ll' => xs <- as_nums l ;; xss <- as_rows ll' ;; Return (xs :: xss)
  end.

(** Modelled from the spec: numpy's [np.array([[..], [..], ...])]. *)
Definition np_array2 (ll : list (list yaml)) : outcome (list (list num)) :=
  xss <- as_rows ll ;; Return (promote2 xss).

(** Modelled from the spec: numpy's [np.array(v)] for a parsed value [v];
    only flat lists are in the model. *)
Definition np_array (v : yaml) : outcome (list num) :=
  match v with
  | YSeq l => np_array1 l
  | _ => Unmodelled
  end.

(** Modelled from the spec: numpy's [np.eye(n)], the identity matrix. *)
Definition eye (n : nat) : list (list float) :=
  (fun i => (fun j => if bool_decide (i = j) then 1%float else 0%float) <$> seq 0 n)
    <$> seq 0 n.

(** Modelled from the spec: numpy's slice assignment [M[:3, :3] = R], which
    embeds the rotation block; [R] must be 3x3. *)
Definition assign_block3 (M R : list (list float)) : outcome (list (list float)) :=
  if bool_decide (length R = 3 ∧ Forall (fun r => length r = 3) R)
  then Return (imap (fun i row =>
                       match R !! i with
                       | Some r => r ++ drop 3 row
                       | None => row
                       end) M)
  else Raise ValueError.

(** Modelled from the spec: numpy's broadcasting of a vector assigned to a
    slice of three entries.  Three values are taken as they are, a single
    one is repeated, any other length is refused. *)
Definition broadcast3 (p : list float) : outcome (list float) :=
  match p with
  | [a] => Return [a; a; a]
  | [_; _; _] => Return p
  | _ => Raise ValueError
  end.

(** Modelled from the spec: numpy's slice assignment [M[:3, j] = p], which
    embeds the position. *)
Definition assign_col3 (M : list (list float)) (j : nat) (p : list float)
  : outcome (list (list float)) :=
  p3 <- broadcast3 p ;;
  Return (imap (fun i row =>
                  match p3 !! i with
                  | Some x => <[j := x]> row
                  | None => row
                  end) M).

(** ** Quaternion to rotation matrix

    [scipy.spatial.transform.Rotation] is a library class that the module
    imports; it is not part of the repository.  The spec has it take the
    quaternion scalar last, [x, y, z, w], and apply the standard
    unit-quaternion-to-matrix formula. *)

(** Modelled from the spec: the norm by which scipy's [from_quat] (not in
    the repository) divides the quaternion. *)
Definition norm4 (x y z w : float) : float :=
  PrimFloat.sqrt (x * x + y * y + z * z + w * w)%float.

(** Modelled from the spec: the standard unit-quaternion-to-matrix formula
    of scipy's [as_matrix] (not in the repository), scalar [w] last. *)
Definition unit_quat_matrix (x y z w : float) : list (list float) :=
  let x2 := (x * x)%float in
  let y2 := (y * y)%float in
  let z2 := (z * z)%float in
  let w2 := (w * w)%float in
  let xy := (x * y)%float in
  let zw := (z * w)%float in
  let xz := (x * z)%float in
  let yw := (y * w)%float in
  let yz := (y * z)%float in
  let xw := (x * w)%float in
  [ [ (x2 - y2 - z2 + w2)%float; (2 * (xy - zw))%float; (2 * (xz + yw))%float ];
    [ (2 * (xy + zw))%float; (- x2 + y2 - z2 + w2)%float; (2 * (yz - xw))%float ];
    [ (2 * (xz - yw))%float; (2 * (yz + xw))%float; (- x2 - y2 + z2 + w2)%float ] ].

(** Modelled from the spec: scipy's [R.from_quat(q).as_matrix()] (not in
    the repository).  Anything that is not four numbers is refused, and so
    is a quaternion of norm zero; the quaternion is normalised first. *)
Definition from_quat_as_matrix (q : list num) : outcome (list (list float)) :=
  match to_float <$> q with
  | [x; y; z; w] =>
      let n := norm4 x y z w in
      if PrimFloat.eqb n 0 then Raise ValueError
      else Return (unit_quat_matrix (x / n) (y / n) (z / n) (w / n))
  | _ => Raise ValueError
  end.

(** ** The functions of [yaml_utils.py] *)

(** [q[0], q[-1] = q[-1], q[0]]: both reads happen first and fail on an
    empty array; then the two entries are stored. *)
Definition swap_first_last (q : list num) : outcome (list num) :=
  match last q, q !! 0 with
  | Some b, Some a => Return (<[length q - 1 := a]> (<[0 := b]> q))
  | _, _ => Raise IndexError
  end.

(** [load_transformation], from the parsed document on.  The test
    ['Position' not in configs[key] or 'Rotation' not in configs[key]] is
    the two tests in sequence: the second operand of [or] is evaluated only
    when the first is false. *)
Definition load_transformation (configs : yaml) (key : string)
  : outcome (list (list float)) :=
  present <- Py.contains key configs ;;
  if negb present then Raise KeyError else
  entry <- Py.getitem configs key ;;
  has_position <- Py.contains "Position" entry ;;
  if negb has_position then Raise ValueError else
  has_rotation <- Py.contains "Rotation" entry ;;
  if negb has_rotation then Raise ValueError else
  (* Extract position and quaternion *)
  position_data <- Py.getitem entry "Position" ;;
  position <- np_array position_data ;;
  rotation_data <- Py.getitem entry "Rotation" ;;
  quaternion <- np_array rotation_data ;;
  (* change quaternion to form [qx, qy, qz, qw] *)
  quaternion <- swap_first_last quaternion ;;
  (* Convert quaternion to rotation matrix *)
  rotation <- from_quat_as_matrix quaternion ;;
  (* Create 4x4 homogeneous transformation matrix *)
  let transformation_matrix := eye 4 in
  transformation_matrix <- assign_block3 transformation_matrix rotation ;;
  transformation_matrix <- assign_col3 transformation_matrix 3 (to_float <$> position) ;;
  Return transformation_matrix.

(** [configs["camera"][field]] *)
Definition camera_field (configs : yaml) (field : string) : outcome yaml :=
  camera <- Py.getitem configs "camera" ;; Py.getitem camera field.

(** [load_camera_intrinsics], from the parsed document on: eleven lookups
    in the order of the source, then the two arrays and the size pair. *)
Definition load_camera_intrinsics (configs : yaml)
  : outcome (list (list num) * list num * (yaml * yaml)) :=
  fx <- camera_field configs "fx" ;;
  fy <- camera_field configs "fy" ;;
  cx <- camera_field configs "cx" ;;
  cy <- camera_field configs "cy" ;;
  k1 <- camera_field configs "k1" ;;
  k2 <- camera_field configs "k2" ;;
  k3 <- camera_field configs "k3" ;;
  p1 <- camera_field configs "p1" ;;
  p2 <- camera_field configs "p2" ;;
  image_width <- camera_field configs "image_width" ;;
  image_height <- camera_field configs "image_height" ;;
  camera_matrix <- np_array2 [ [fx; YInt 0; cx];
                              [YInt 0; fy; cy];
                              [YInt 0; YInt 0; YInt 1] ] ;;
  distortion_coefficients <- np_array1 [k1; k2; p1; p2; k3] ;;
  let image_size := (image_height, image_width) in
  Return (camera_matrix, distortion_coefficients, image_size).

(** [load_ros_topic_names], from the parsed document on.  The dictionary
    literal stores [image], [tf] and [event] in that order. *)
Definition load_ros_topic_names (configs : yaml) : outcome (gmap string yaml) :=
  topics <- Py.get configs "topics" (YMap ∅) ;;
  image_topic <- Py.get topics "image" YNull ;;
  tf_topic <- Py.get topics "tf" YNull ;;
  event_topic <- Py.get topics "event" YNull ;;
  Return (<["event" := event_topic]>
            (<["tf" := tf_topic]> (<["image" := image_topic]> ∅))).

(** The loop of [load_parameters_from_yaml]: one store into [parameters]
    per requested key, in the order of [keys]. *)
Fixpoint extract_parameters (configs : yaml) (keys : list string)
    (parameters : gmap string yaml) : outcome (gmap string yaml) :=
  match keys with
  | [] => Return parameters
  | key :: keys' =>
      present <- Py.contains key configs ;;
      value <- (if present then Py.getitem configs key else Return YNull) ;;
      extract_parameters configs keys' (<[key := value]> parameters)
  end.

(** [load_parameters_from_yaml], from the parsed document on.  The test
    [len(parameters.values()) == 1] is on the dictionary that the loop has
    filled; [list(parameters.values())[0]] is its first value. *)
Definition load_parameters_from_yaml (configs : yaml) (keys : list string)
  : outcome yaml :=
  parameters <- extract_parameters configs keys ∅ ;;
  if bool_decide (size parameters = 1)
  then match (map_to_list parameters).*2 !! 0 with
       | Some v => Return v
       | None => Raise IndexError
       end
  else Return (YMap parameters).

(** The order the comment in [load_transformation] and the spec ask for:
    scalar first [w, x, y, z] becomes scalar last [x, y, z, w]. *)
Definition scalar_last_of_scalar_first (q : list num) : list num :=
  match q with
  | w :: xyz => xyz ++ [w]
  | [] => []
  end.

(** The fields that [load_camera_intrinsics] reads from the [camera] block,
    in the order in which it reads them. *)
Definition required_fields : list string :=
  [ "fx"; "fy"; "cx"; "cy"; "k1"; "k2"; "k3"; "p1"; "p2";
    "image_width"; "image_height" ].

(** The field [f] of the block holds the number [x]. *)
Definition numeric_field (cam : gmap string yaml) (f : string) (x : num) : Prop :=
  exists v, cam !! f = Some v /\ as_num v = Return x.

(** The parsed values that are neither a dictionary, a list nor a string:
    [None] (an empty document), booleans and numbers. *)
Definition is_scalar (v : yaml) : bool :=
  match v with
  | YNull | YBool _ | YInt _ | YFloat _ => true
  | YStr _ | YSeq _ | YMap _ => false
  end.

(** The matrix with the rows of [R] extended by the entries of [p], over
    the row [0, 0, 0, 1]. *)
Definition homogeneous (R : list (list float)) (p : list float) : list (list float) :=
  zip_with (fun (r : list float) (x : float) => r ++ [x]) R p
    ++ [ [0%float; 0%float; 0%float; 1%float] ].

(** A number that is zero: the integer, or the float of either sign. *)
Definition zero_num (x : num) : Prop :=
  x = NInt 0 \/ x = NFloat 0%float \/ x = NFloat (-0)%float.


(** The largest distance between entries of two matrices in the same place. *)
Definition max_abs_diff (A B : list (list float)) : float :=
  foldr (fun (d acc : float) => if PrimFloat.ltb acc d then d else acc) 0%float
    (concat (zip_with (zip_with (fun a b : float => PrimFloat.abs (a - b)%float)) A B)).

(** * Properties *)

(** ** Lookups in a dictionary *)

Section dictionary.
Context (m : gmap string yaml) (k : string).

Lemma contains_absent : m !! k = None -> Py.contains k (YMap m) = Return false.
Proof.
  intros H. cbn. rewrite H. reflexivity.
Qed.

Lemma contains_present v : m !! k = Some v -> Py.contains k (YMap m) = Return true.
Proof. intros H. cbn. rewrite H. reflexivity. Qed.

Lemma getitem_absent : m !! k = None -> Py.getitem (YMap m) k = Raise KeyError.
Proof. intros H. cbn. now rewrite H. Qed.

Lemma getitem_present v : m !! k = Some v -> Py.getitem (YMap m) k = Return v.
Proof. intros H. cbn. now rewrite H. Qed.
End dictionary.

(** ** [load_transformation]: the two checks *)

Lemma load_transformation_absent_key m key :
  m !! key = None -> load_transformation (YMap m) key = Raise KeyError.
Proof.
  intros H. unfold load_transformation.
  now rewrite (contains_absent _ _ H).
Qed.

Lemma load_transformation_lacks_field m key e :
  m !! key = Some (YMap e) ->
  e !! "Position" = None \/ e !! "Rotation" = None ->
  load_transformation (YMap m) key = Raise ValueError.
Proof.
  intros Hkey Hlack. unfold load_transformation.
  rewrite (contains_present _ _ _ Hkey), (getitem_present _ _ _ Hkey). cbn [bind negb].
  destruct (e !! "Position") as [p|] eqn:Hp.
  - destruct Hlack as [|Hr]; [discriminate|].
    rewrite (contains_present _ _ _ Hp), (contains_absent _ _ Hr). reflexivity.
  - rewrite (contains_absent _ _ Hp). reflexivity.
Qed.

(** X21: [load_transformation] raises [KeyError] when the key is absent from
    the document, and raises [ValueError] when the entry at the key is a
    dictionary with neither a [Position] nor a [Rotation] field; in both
    cases the call raises, so no matrix is returned. *)
Theorem load_transformation_errors (m : gmap string yaml) (key : string) :
  (m !! key = None ->
   load_transformation (YMap m) key = Raise KeyError) /\
  (forall e : gmap string yaml,
     m !! key = Some (YMap e) ->
     e !! "Position" = None -> e !! "Rotation" = None ->
     load_transformation (YMap m) key = Raise ValueError).
Proof.
  split.
  - apply load_transformation_absent_key.
  - intros e Hkey Hp _. eapply load_transformation_lacks_field; eauto.
Qed.

Lemma load_transformation_errors_witness :
  load_transformation (YMap {[ "lidar" := YMap {[ "frame" := YStr "base" ]} ]}) "camera"
    = Raise KeyError /\
  load_transformation (YMap {[ "lidar" := YMap {[ "frame" := YStr "base" ]} ]}) "lidar"
    = Raise ValueError.
Proof.
  split.
  - apply (proj1 (load_transformation_errors
                    {[ "lidar" := YMap {[ "frame" := YStr "base" ]} ]} "camera")).
    reflexivity.
  - apply (proj2 (load_transformation_errors
                    {[ "lidar" := YMap {[ "frame" := YStr "base" ]} ]} "lidar")
             {[ "frame" := YStr "base" ]}); reflexivity.
Defined.

(** X22: [load_transformation] raises [ValueError] as soon as the entry at
    the key is a dictionary that lacks one of the two fields [Position] and
    [Rotation]: an entry with only one of them is refused like an entry with
    none. *)
Theorem load_transformation_one_field_missing
    (m e : gmap string yaml) (key : string) :
  m !! key = Some (YMap e) ->
  e !! "Position" = None \/ e !! "Rotation" = None ->
  load_transformation (YMap m) key = Raise ValueError.
Proof. apply load_transformation_lacks_field. Qed.

Lemma load_transformation_one_field_missing_witness :
  load_transformation
    (YMap {[ "lidar" := YMap {[ "Position" := YSeq [YInt 1; YInt 2; YInt 3] ]} ]})
    "lidar" = Raise ValueError /\
  load_transformation
    (YMap {[ "lidar" := YMap {[ "Rotation" := YSeq [YInt 1; YInt 0; YInt 0; YInt 0] ]} ]})
    "lidar" = Raise ValueError.
Proof.
  split.
  - apply (load_transformation_one_field_missing
             {[ "lidar" := YMap {[ "Position" := YSeq [YInt 1; YInt 2; YInt 3] ]} ]}
             {[ "Position" := YSeq [YInt 1; YInt 2; YInt 3] ]} "lidar").
    + reflexivity.
    + right. reflexivity.
  - apply (load_transformation_one_field_missing
             {[ "lidar" := YMap {[ "Rotation" := YSeq [YInt 1; YInt 0; YInt 0; YInt 0] ]} ]}
             {[ "Rotation" := YSeq [YInt 1; YInt 0; YInt 0; YInt 0] ]} "lidar").
    + reflexivity.
    + left. reflexivity.
Defined.

(** C3: an entry with nothing under its key parses to [None]; it has
    neither a [Position] nor a [Rotation] field, and the docstring of
    [load_transformation] promises [ValueError] for a file without valid
    transformation data.  The test ['Position' not in configs[key]] raises
    [TypeError] there, where the empty dictionary gets the [ValueError]. *)
Theorem load_transformation_empty_entry :
  load_transformation (YMap {[ "lidar" := YNull ]}) "lidar" = Raise TypeError /\
  load_transformation (YMap {[ "lidar" := YMap ∅ ]}) "lidar" = Raise ValueError /\
  load_transformation (YMap {[ "lidar" := YNull ]}) "camera" = Raise KeyError.
Proof. repeat split; vm_compute; reflexivity. Qed.

(** C10: an entry that is a number or a boolean lacks the [Position] field
    and the [Rotation] field like an entry that is [None]; the call raises
    [TypeError] on each, where a dictionary with one field of the two gets
    the [ValueError]. *)
Theorem load_transformation_entry_without_fields :
  load_transformation (YMap {[ "imu" := YFloat 0.5 ]}) "imu" = Raise TypeError /\
  load_transformation (YMap {[ "imu" := YBool false ]}) "imu" = Raise TypeError /\
  load_transformation (YMap {[ "imu" := YNull ]}) "imu" = Raise TypeError /\
  load_transformation
    (YMap {[ "imu" := YMap {[ "Position" := YSeq [YInt 1; YInt 2; YInt 3] ]} ]}) "imu"
    = Raise ValueError.
Proof. repeat split; vm_compute; reflexivity. Qed.

(** ** Inversion of successful runs *)

Lemma bind_Return {A B : Type} (c : outcome A) (k : A -> outcome B) (b : B) :
  bind c k = Return b -> exists a, c = Return a /\ k a = Return b.
Proof. destruct c as [a| |]; cbn; intros H; [eauto | discriminate..]. Qed.

Tactic Notation "inv_bind" hyp(H) "as" ident(a) ident(E) :=
  apply bind_Return in H as (a & E & H).

Lemma from_quat_as_matrix_shape q R :
  from_quat_as_matrix q = Return R ->
  exists r00 r01 r02 r10 r11 r12 r20 r21 r22,
    R = [ [r00; r01; r02]; [r10; r11; r12]; [r20; r21; r22] ].
Proof.
  unfold from_quat_as_matrix.
  destruct (to_float <$> q) as [|x [|y [|z [|w [|]]]]]; try discriminate.
  destruct (PrimFloat.eqb _ _); [discriminate|].
  intros [= <-]. unfold unit_quat_matrix. repeat eexists.
Qed.


(** ** [load_transformation]: the matrix that is returned *)



(** ** The identity quaternion *)

(** C4: an entry with [Position = [1, 2, 3]] and [Rotation = [1, 0, 0, 0]]
    (the identity quaternion, scalar first) is loaded as the 4x4 matrix with
    the identity as rotation block and [1, 2, 3] as translation column. *)
Theorem load_transformation_identity
    (m e : gmap string yaml) (key : string) :
  m !! key = Some (YMap e) ->
  e !! "Position" = Some (YSeq [YInt 1; YInt 2; YInt 3]) ->
  e !! "Rotation" = Some (YSeq [YInt 1; YInt 0; YInt 0; YInt 0]) ->
  load_transformation (YMap m) key
    = Return [ [1%float; 0%float; 0%float; 1%float];
               [0%float; 1%float; 0%float; 2%float];
               [0%float; 0%float; 1%float; 3%float];
               [0%float; 0%float; 0%float; 1%float] ].
Proof.
  intros Hkey Hp Hr. unfold load_transformation.
  rewrite (contains_present _ _ _ Hkey), (getitem_present _ _ _ Hkey). cbn [bind negb].
  rewrite (contains_present _ _ _ Hp), (contains_present _ _ _ Hr). cbn [bind negb].
  rewrite (getitem_present _ _ _ Hp), (getitem_present _ _ _ Hr).
  vm_compute. reflexivity.
Qed.

Lemma load_transformation_identity_witness :
  load_transformation
    (YMap {[ "imu" := YMap {[ "Position" := YSeq [YInt 1; YInt 2; YInt 3];
                              "Rotation" := YSeq [YInt 1; YInt 0; YInt 0; YInt 0] ]} ]})
    "imu"
    = Return [ [1%float; 0%float; 0%float; 1%float];
               [0%float; 1%float; 0%float; 2%float];
               [0%float; 0%float; 1%float; 3%float];
               [0%float; 0%float; 0%float; 1%float] ].
Proof.
  apply (load_transformation_identity
           {[ "imu" := YMap {[ "Position" := YSeq [YInt 1; YInt 2; YInt 3];
                               "Rotation" := YSeq [YInt 1; YInt 0; YInt 0; YInt 0] ]} ]}
           {[ "Position" := YSeq [YInt 1; YInt 2; YInt 3];
              "Rotation" := YSeq [YInt 1; YInt 0; YInt 0; YInt 0] ]}
           "imu"); reflexivity.
Defined.

(** ** The reordering of the quaternion *)

Lemma swap_first_last_four (w x y z : num) :
  swap_first_last [w; x; y; z] = Return [z; x; y; w].
Proof. reflexivity. Qed.

Lemma scalar_last_of_scalar_first_four (w x y z : num) :
  scalar_last_of_scalar_first [w; x; y; z] = [x; y; z; w].
Proof. reflexivity. Qed.

(** X3: The swap yields the scalar-last order exactly when the three vector
    components coincide. *)
Lemma swap_first_last_scalar_last_iff (w x y z : num) :
  swap_first_last [w; x; y; z] = Return (scalar_last_of_scalar_first [w; x; y; z])
  <-> x = y /\ y = z.
Proof.
  rewrite swap_first_last_four, scalar_last_of_scalar_first_four. split.
  - intros [= -> ->]. auto.
  - intros [-> ->]. reflexivity.
Qed.

(** C1: the quaternion [w, x, y, z] = [0, 1, 0, 0] (half a turn about the x
    axis) is not brought into the order [x, y, z, w] = [1, 0, 0, 0] by the
    swap of its first and last element: the swap leaves it as [0, 1, 0, 0],
    which the conversion reads as half a turn about the y axis.  The matrix
    returned has the rotation block diag(-1, 1, -1), where the scalar-last
    order gives diag(1, -1, -1). *)
Theorem load_transformation_swap_misorders :
  swap_first_last [NInt 0; NInt 1; NInt 0; NInt 0]
    = Return [NInt 0; NInt 1; NInt 0; NInt 0] /\
  scalar_last_of_scalar_first [NInt 0; NInt 1; NInt 0; NInt 0]
    = [NInt 1; NInt 0; NInt 0; NInt 0] /\
  load_transformation
    (YMap {[ "T" := YMap {[ "Position" := YSeq [YInt 0; YInt 0; YInt 0];
                            "Rotation" := YSeq [YInt 0; YInt 1; YInt 0; YInt 0] ]} ]})
    "T"
    = Return [ [(-1)%float; 0%float; 0%float; 0%float];
               [0%float; 1%float; 0%float; 0%float];
               [0%float; 0%float; (-1)%float; 0%float];
               [0%float; 0%float; 0%float; 1%float] ] /\
  from_quat_as_matrix [NInt 1; NInt 0; NInt 0; NInt 0]
    = Return [ [1%float; 0%float; 0%float];
               [0%float; (-1)%float; 0%float];
               [0%float; 0%float; (-1)%float] ].
Proof. repeat split; vm_compute; reflexivity. Qed.

(** C9: the quaternion [w, x, y, z] = [0, 1, 0, 0] reordered as
    [load_transformation] does and converted to a matrix is not the
    rotation that was stored.  A rotation matrix determines its rotation,
    so the way back to a quaternion has nothing to recover: the matrix of
    the reordered array is diag(-1, 1, -1), the matrix of the stored
    rotation, the array in the order [x, y, z, w], is diag(1, -1, -1), and
    the two differ by 2 in two of their entries, far from any
    floating-point tolerance. *)
Theorem reordered_rotation_differs :
  (q <- swap_first_last [NInt 0; NInt 1; NInt 0; NInt 0] ;; from_quat_as_matrix q)
    = Return [ [(-1)%float; 0%float; 0%float];
               [0%float; 1%float; 0%float];
               [0%float; 0%float; (-1)%float] ] /\
  from_quat_as_matrix (scalar_last_of_scalar_first [NInt 0; NInt 1; NInt 0; NInt 0])
    = Return [ [1%float; 0%float; 0%float];
               [0%float; (-1)%float; 0%float];
               [0%float; 0%float; (-1)%float] ] /\
  max_abs_diff
    [ [(-1)%float; 0%float; 0%float];
      [0%float; 1%float; 0%float];
      [0%float; 0%float; (-1)%float] ]
    [ [1%float; 0%float; 0%float];
      [0%float; (-1)%float; 0%float];
      [0%float; 0%float; (-1)%float] ] = 2%float.
Proof. repeat split; vm_compute; reflexivity. Qed.

(** ** [load_camera_intrinsics] *)

Lemma cast_float (all : list num) (f : float) : cast all (NFloat f) = NFloat f.
Proof. unfold cast. now destruct (existsb is_float all). Qed.

Lemma cast_all_int (all : list num) (x : num) :
  existsb is_float all = false -> cast all x = x.
Proof. unfold cast. now intros ->. Qed.

Ltac camera_step cam f x H :=
  destruct (cam !! f) as [x|] eqn:H;
  [ rewrite (getitem_present _ _ _ H); cbn [bind]
  | left; exists f; rewrite (getitem_absent _ _ H); cbn [bind];
    split; [unfold required_fields; repeat constructor
           | split; [assumption | reflexivity] ] ].

(** Either a field is missing and the first missing one raises [KeyError],
    or all eleven are read and the arrays are built from them. *)
Lemma load_camera_intrinsics_cases (m cam : gmap string yaml) :
  m !! "camera" = Some (YMap cam) ->
  (exists f, f ∈ required_fields /\ cam !! f = None /\
             load_camera_intrinsics (YMap m) = Raise KeyError) \/
  (exists fx fy cx cy k1 k2 k3 p1 p2 image_width image_height,
     (cam !! "fx" = Some fx /\ cam !! "fy" = Some fy /\
      cam !! "cx" = Some cx /\ cam !! "cy" = Some cy /\
      cam !! "k1" = Some k1 /\ cam !! "k2" = Some k2 /\ cam !! "k3" = Some k3 /\
      cam !! "p1" = Some p1 /\ cam !! "p2" = Some p2 /\
      cam !! "image_width" = Some image_width /\
      cam !! "image_height" = Some image_height) /\
     load_camera_intrinsics (YMap m) =
       (camera_matrix <- np_array2 [ [fx; YInt 0; cx];
                                     [YInt 0; fy; cy];
                                     [YInt 0; YInt 0; YInt 1] ] ;;
        distortion_coefficients <- np_array1 [k1; k2; p1; p2; k3] ;;
        Return (camera_matrix, distortion_coefficients,
                (image_height, image_width)))).
Proof.
  intros Hcam. unfold load_camera_intrinsics, camera_field.
  rewrite (getitem_present _ _ _ Hcam). cbn [bind].
  camera_step cam "fx" fx Hfx.
  camera_step cam "fy" fy Hfy.
  camera_step cam "cx" cx Hcx.
  camera_step cam "cy" cy Hcy.
  camera_step cam "k1" k1 Hk1.
  camera_step cam "k2" k2 Hk2.
  camera_step cam "k3" k3 Hk3.
  camera_step cam "p1" p1 Hp1.
  camera_step cam "p2" p2 Hp2.
  camera_step cam "image_width" w Hw.
  camera_step cam "image_height" h Hh.
  right. exists fx, fy, cx, cy, k1, k2, k3, p1, p2, w, h.
  split; [repeat split; assumption | reflexivity].
Qed.

(** C5: for a camera block whose nine calibration fields hold numbers,
    [load_camera_intrinsics] returns the array of
    [[fx, 0, cx], [0, fy, cy], [0, 0, 1]] as camera matrix, the array of
    [k1, k2, p1, p2, k3] as distortion vector, and the pair
    (image_height, image_width) as image size. *)
Theorem load_camera_intrinsics_layout
    (m cam : gmap string yaml)
    (fx fy cx cy k1 k2 k3 p1 p2 : num) (image_width image_height : yaml) :
  m !! "camera" = Some (YMap cam) ->
  numeric_field cam "fx" fx -> numeric_field cam "fy" fy ->
  numeric_field cam "cx" cx -> numeric_field cam "cy" cy ->
  numeric_field cam "k1" k1 -> numeric_field cam "k2" k2 ->
  numeric_field cam "k3" k3 ->
  numeric_field cam "p1" p1 -> numeric_field cam "p2" p2 ->
  cam !! "image_width" = Some image_width ->
  cam !! "image_height" = Some image_height ->
  load_camera_intrinsics (YMap m)
    = Return (promote2 [ [fx; NInt 0; cx];
                         [NInt 0; fy; cy];
                         [NInt 0; NInt 0; NInt 1] ],
              promote1 [k1; k2; p1; p2; k3],
              (image_height, image_width)).
Proof.
  intros Hcam (vfx & Lfx & Nfx) (vfy & Lfy & Nfy) (vcx & Lcx & Ncx) (vcy & Lcy & Ncy)
         (vk1 & Lk1 & Nk1) (vk2 & Lk2 & Nk2) (vk3 & Lk3 & Nk3)
         (vp1 & Lp1 & Np1) (vp2 & Lp2 & Np2) Lw Lh.
  unfold load_camera_intrinsics, camera_field.
  rewrite (getitem_present _ _ _ Hcam). cbn [bind].
  rewrite (getitem_present _ _ _ Lfx), (getitem_present _ _ _ Lfy),
    (getitem_present _ _ _ Lcx), (getitem_present _ _ _ Lcy),
    (getitem_present _ _ _ Lk1), (getitem_present _ _ _ Lk2),
    (getitem_present _ _ _ Lk3), (getitem_present _ _ _ Lp1),
    (getitem_present _ _ _ Lp2), (getitem_present _ _ _ Lw),
    (getitem_present _ _ _ Lh).
  cbn [bind]. unfold np_array2, np_array1. cbn [as_rows as_nums].
  rewrite Nfx, Nfy, Ncx, Ncy, Nk1, Nk2, Nk3, Np1, Np2.
  reflexivity.
Qed.

Lemma load_camera_intrinsics_layout_witness :
  load_camera_intrinsics
    (YMap {[ "camera" :=
               YMap {[ "fx" := YFloat 500.5; "fy" := YFloat 501.25;
                       "cx" := YInt 320; "cy" := YInt 240;
                       "k1" := YFloat 0.5; "k2" := YFloat 0.25; "k3" := YInt 0;
                       "p1" := YFloat 0.125; "p2" := YInt 1;
                       "image_width" := YInt 640; "image_height" := YInt 480 ]} ]})
    = Return ([ [NFloat 500.5; NFloat 0; NFloat 320];
                [NFloat 0; NFloat 501.25; NFloat 240];
                [NFloat 0; NFloat 0; NFloat 1] ],
              [NFloat 0.5; NFloat 0.25; NFloat 0.125; NFloat 1; NFloat 0],
              (YInt 480, YInt 640)).
Proof.
  apply (load_camera_intrinsics_layout
           {[ "camera" :=
                YMap {[ "fx" := YFloat 500.5; "fy" := YFloat 501.25;
                        "cx" := YInt 320; "cy" := YInt 240;
                        "k1" := YFloat 0.5; "k2" := YFloat 0.25; "k3" := YInt 0;
                        "p1" := YFloat 0.125; "p2" := YInt 1;
                        "image_width" := YInt 640; "image_height" := YInt 480 ]} ]}
           {[ "fx" := YFloat 500.5; "fy" := YFloat 501.25;
              "cx" := YInt 320; "cy" := YInt 240;
              "k1" := YFloat 0.5; "k2" := YFloat 0.25; "k3" := YInt 0;
              "p1" := YFloat 0.125; "p2" := YInt 1;
              "image_width" := YInt 640; "image_height" := YInt 480 ]}
           (NFloat 500.5) (NFloat 501.25) (NInt 320) (NInt 240)
           (NFloat 0.5) (NFloat 0.25) (NInt 0) (NFloat 0.125) (NInt 1)
           (YInt 640) (YInt 480));
    try reflexivity; eexists; split; reflexivity.
Defined.




(** ** [load_ros_topic_names] *)

(** X23: [load_ros_topic_names] does not fail on fields missing from a
    [topics] dictionary.  A document without [topics] gives [None] for the
    three fields; with a [topics] dictionary every field that it lacks is
    [None] and the others carry its value; the dictionary returned has
    exactly the keys [image], [tf] and [event]. *)
Theorem load_ros_topic_names_total (m : gmap string yaml) :
  (m !! "topics" = None ->
   load_ros_topic_names (YMap m)
     = Return {[ "image" := YNull; "tf" := YNull; "event" := YNull ]}) /\
  (forall t : gmap string yaml,
     m !! "topics" = Some (YMap t) ->
     exists r : gmap string yaml,
       load_ros_topic_names (YMap m) = Return r /\
       dom r = ({[ "image"; "tf"; "event" ]} : gset string) /\
       r !! "image" = Some (default YNull (t !! "image")) /\
       r !! "tf" = Some (default YNull (t !! "tf")) /\
       r !! "event" = Some (default YNull (t !! "event"))).
Proof.
  split.
  - intros H. unfold load_ros_topic_names. cbn. rewrite H. reflexivity.
  - intros t H. unfold load_ros_topic_names. cbn. rewrite H. cbn.
    eexists. split; [reflexivity|]. split; [|split; [|split]].
    + rewrite !dom_insert_L, dom_empty_L. set_solver.
    + now rewrite !lookup_insert_ne, lookup_insert_eq by done.
    + now rewrite lookup_insert_ne, lookup_insert_eq by done.
    + now rewrite lookup_insert_eq.
Qed.

Lemma load_ros_topic_names_total_witness :
  load_ros_topic_names (YMap {[ "camera" := YNull ]})
    = Return {[ "image" := YNull; "tf" := YNull; "event" := YNull ]} /\
  load_ros_topic_names (YMap {[ "topics" := YMap {[ "image" := YStr "/cam/image_raw" ]} ]})
    = Return {[ "image" := YStr "/cam/image_raw"; "tf" := YNull; "event" := YNull ]}.
Proof.
  split.
  - apply (proj1 (load_ros_topic_names_total {[ "camera" := YNull ]})). reflexivity.
  - destruct (load_ros_topic_names_total
                {[ "topics" := YMap {[ "image" := YStr "/cam/image_raw" ]} ]})
      as [_ H].
    destruct (H {[ "image" := YStr "/cam/image_raw" ]}) as (r & Hr & _);
      [vm_compute; reflexivity|].
    vm_compute. reflexivity.
Defined.

(** C6: a [topics:] line with nothing under it parses to [None]; the three
    topic fields are missing from it.  [configs.get('topics', {})] uses its
    default only for an absent key, so the [None] goes on to
    [topics.get('image')], which raises [AttributeError].  A document
    without [topics], and one with an empty [topics] dictionary, give the
    three fields as [None]. *)
Theorem load_ros_topic_names_empty_block :
  load_ros_topic_names (YMap {[ "topics" := YNull ]}) = Raise AttributeError /\
  load_ros_topic_names (YMap {[ "topics" := YMap ∅ ]})
    = Return {[ "image" := YNull; "tf" := YNull; "event" := YNull ]} /\
  load_ros_topic_names (YMap ∅)
    = Return {[ "image" := YNull; "tf" := YNull; "event" := YNull ]}.
Proof. repeat split; vm_compute; reflexivity. Qed.

(** ** [load_parameters_from_yaml] *)

(** On a dictionary the loop never raises: it stores the value of each
    requested key, [None] for the keys that the document lacks. *)
Lemma extract_parameters_map (m : gmap string yaml) (keys : list string)
    (parameters : gmap string yaml) :
  extract_parameters (YMap m) keys parameters
  = Return (foldl (fun p k => <[k := default YNull (m !! k)]> p) parameters keys).
Proof.
  revert parameters. induction keys as [|k keys IH]; intros parameters; [reflexivity|].
  cbn [extract_parameters foldl].
  destruct (m !! k) as [v|] eqn:Hk.
  - rewrite (contains_present _ _ _ Hk). cbn [bind].
    rewrite (getitem_present _ _ _ Hk). cbn [bind]. apply IH.
  - rewrite (contains_absent _ _ Hk). cbn [bind]. apply IH.
Qed.

Lemma lookup_extracted (m : gmap string yaml) (keys : list string)
    (parameters : gmap string yaml) (k : string) :
  foldl (fun p k => <[k := default YNull (m !! k)]> p) parameters keys !! k
  = if decide (k ∈ keys) then Some (default YNull (m !! k)) else parameters !! k.
Proof.
  revert parameters. induction keys as [|k0 keys IH]; intros parameters; cbn [foldl].
  - destruct (decide (k ∈ [])) as [Hin|]; [|reflexivity].
    now apply elem_of_nil in Hin.
  - rewrite IH. destruct (decide (k ∈ keys)) as [Hin|Hnin].
    + rewrite decide_True; [reflexivity | right; exact Hin].
    + destruct (decide (k = k0)) as [->|Hne].
      * rewrite decide_True by left. apply lookup_insert_eq.
      * rewrite decide_False.
        -- apply lookup_insert_ne. congruence.
        -- intros [->|Hin]%elem_of_cons; [apply Hne; reflexivity | apply Hnin, Hin].
Qed.

Lemma load_parameters_single (k : string) (v : yaml) :
  (if bool_decide (size ({[ k := v ]} : gmap string yaml) = 1)
   then match (map_to_list ({[ k := v ]} : gmap string yaml)).*2 !! 0 with
        | Some v => Return v
        | None => Raise IndexError
        end
   else Return (YMap {[ k := v ]})) = Return v.
Proof.
  rewrite bool_decide_eq_true_2 by apply map_size_singleton.
  now rewrite map_to_list_singleton.
Qed.

(** C2: on every document and every list of requested keys
    [load_parameters_from_yaml] builds the dictionary that maps each
    requested key to its value in the document, [None] for the keys that
    the document lacks, and never raises.  It returns the bare value when
    the requested keys are one key (given once or repeated), and the whole
    dictionary otherwise. *)
Theorem load_parameters_from_yaml_shape
    (m : gmap string yaml) (keys : list string) :
  exists parameters : gmap string yaml,
    (forall k, parameters !! k
               = if decide (k ∈ keys) then Some (default YNull (m !! k)) else None) /\
    (forall k, (forall k', k' ∈ keys <-> k' = k) ->
               load_parameters_from_yaml (YMap m) keys
               = Return (default YNull (m !! k))) /\
    (~ (exists k, forall k', k' ∈ keys <-> k' = k) ->
     load_parameters_from_yaml (YMap m) keys = Return (YMap parameters)).
Proof.
  exists (foldl (fun p k => <[k := default YNull (m !! k)]> p) (∅ : gmap string yaml) keys).
  assert (Hlookup : forall k,
    foldl (fun p k => <[k := default YNull (m !! k)]> p) (∅ : gmap string yaml) keys !! k
    = if decide (k ∈ keys) then Some (default YNull (m !! k)) else None).
  { intros k. now rewrite lookup_extracted, lookup_empty. }
  split; [exact Hlookup|].
  unfold load_parameters_from_yaml. rewrite extract_parameters_map. cbn [bind].
  split.
  - intros k Hk.
    assert (Hsingle : foldl (fun p k => <[k := default YNull (m !! k)]> p)
                            (∅ : gmap string yaml) keys
                      = {[ k := default YNull (m !! k) ]}).
    { apply map_eq. intros k'. rewrite Hlookup.
      destruct (decide (k' ∈ keys)) as [Hin|Hnin].
      - apply Hk in Hin as ->. now rewrite lookup_singleton_eq.
      - rewrite lookup_singleton_ne; [reflexivity|].
        intros ->. apply Hnin, Hk. reflexivity. }
    rewrite Hsingle. apply load_parameters_single.
  - intros Hmany. rewrite bool_decide_eq_false_2; [reflexivity|].
    intros Hsize. apply Hmany.
    rewrite <- (size_dom (D := gset string)) in Hsize.
    apply size_1_elem_of in Hsize as [k Hk]. exists k. intros k'.
    rewrite <- (elem_of_singleton (C := gset string)), <- Hk, elem_of_dom, Hlookup.
    destruct (decide (k' ∈ keys)); split; intros H;
      try done; try (eexists; reflexivity); now destruct H.
Qed.

Lemma load_parameters_from_yaml_shape_witness :
  load_parameters_from_yaml (YMap {[ "rate" := YInt 30 ]}) ["rate"]
    = Return (YInt 30) /\
  exists parameters : gmap string yaml,
    load_parameters_from_yaml (YMap {[ "rate" := YInt 30 ]}) ["rate"; "gain"]
      = Return (YMap parameters) /\
    parameters !! "rate" = Some (YInt 30) /\
    parameters !! "gain" = Some YNull.
Proof.
  split.
  - destruct (load_parameters_from_yaml_shape {[ "rate" := YInt 30 ]} ["rate"])
      as (parameters & _ & Hone & _).
    apply (Hone "rate"). intros k'. rewrite list_elem_of_singleton. reflexivity.
  - destruct (load_parameters_from_yaml_shape {[ "rate" := YInt 30 ]} ["rate"; "gain"])
      as (parameters & Hlookup & _ & Hmany).
    exists parameters. split; [|split].
    + apply Hmany. intros [k Hk].
      assert (H1 : "rate" = k) by (apply Hk; repeat constructor).
      assert (H2 : "gain" = k) by (apply Hk; repeat constructor).
      congruence.
    + rewrite Hlookup. rewrite decide_True by repeat constructor. reflexivity.
    + rewrite Hlookup. rewrite decide_True by repeat constructor. reflexivity.
Defined.

(** The claim as the spec words it, "one key requested" read as a list of
    one key, fails when a key is requested twice: two keys are requested and
    the bare value comes back, not the dictionary. *)
Lemma load_parameters_from_yaml_repeated_key :
  length ["rate"; "rate"] = 2 /\
  load_parameters_from_yaml (YMap {[ "rate" := YInt 30 ]}) ["rate"; "rate"]
    = Return (YInt 30) /\
  load_parameters_from_yaml (YMap {[ "rate" := YInt 30 ]}) ["rate"; "rate"]
    <> Return (YMap {[ "rate" := YInt 30 ]}).
Proof.
  split; [reflexivity|].
  assert (H : load_parameters_from_yaml (YMap {[ "rate" := YInt 30 ]}) ["rate"; "rate"]
              = Return (YInt 30)) by (vm_compute; reflexivity).
  split; [exact H|]. rewrite H. discriminate.
Qed.

(** ** The edges of the error handling

    What the functions do on values that are not dictionaries where the
    schema has one, and on arrays of the wrong length. *)

(** X19: A [topics] entry that is present but is not a dictionary, such as the
    [None] of a [topics:] line with nothing under it, is returned by the
    first [get] in place of the default, and the next [get] raises
    [AttributeError]. *)
Lemma load_ros_topic_names_not_a_block (m : gmap string yaml) (v : yaml) :
  m !! "topics" = Some v ->
  (forall t, v <> YMap t) ->
  load_ros_topic_names (YMap m) = Raise AttributeError.
Proof.
  intros H Hv. unfold load_ros_topic_names. cbn. rewrite H. cbn.
  destruct v as [| | | | | |t]; try reflexivity. now destruct (Hv t).
Qed.

(** X20: A [camera] entry that is present but is not a dictionary cannot be
    indexed by a field name: [TypeError], not [KeyError]. *)
Lemma load_camera_intrinsics_not_a_block (m : gmap string yaml) (v : yaml) :
  m !! "camera" = Some v ->
  (forall cam, v <> YMap cam) ->
  load_camera_intrinsics (YMap m) = Raise TypeError.
Proof.
  intros H Hv. unfold load_camera_intrinsics, camera_field.
  rewrite (getitem_present _ _ _ H). cbn.
  destruct v as [| | | | | |t]; try reflexivity. now destruct (Hv t).
Qed.

Lemma load_transformation_entry_null (m : gmap string yaml) (key : string) :
  m !! key = Some YNull ->
  load_transformation (YMap m) key = Raise TypeError.
Proof.
  intros H. unfold load_transformation.
  now rewrite (contains_present _ _ _ H), (getitem_present _ _ _ H).
Qed.

Example swap_first_last_empty : swap_first_last [] = Raise IndexError.
Proof. reflexivity. Qed.

Example swap_first_last_one : swap_first_last [NInt 7] = Return [NInt 7].
Proof. reflexivity. Qed.

Example from_quat_zero_norm :
  from_quat_as_matrix [NInt 0; NInt 0; NInt 0; NInt 0] = Raise ValueError.
Proof. vm_compute. reflexivity. Qed.

Example from_quat_three_values :
  from_quat_as_matrix [NInt 1; NInt 0; NInt 0] = Raise ValueError.
Proof. reflexivity. Qed.

Example load_transformation_short_position :
  load_transformation
    (YMap {[ "T" := YMap {[ "Position" := YSeq [YInt 1; YInt 2];
                            "Rotation" := YSeq [YInt 1; YInt 0; YInt 0; YInt 0] ]} ]})
    "T" = Raise ValueError.
Proof. vm_compute. reflexivity. Qed.

Example load_parameters_from_yaml_no_key :
  load_parameters_from_yaml (YMap {[ "rate" := YInt 30 ]}) [] = Return (YMap ∅).
Proof. vm_compute. reflexivity. Qed.

(** * Further properties of the code *)

(** ** The exchange of the first and last entry *)

Lemma swap_first_last_snoc (a b : num) (t : list num) :
  swap_first_last (a :: t ++ [b]) = Return (b :: t ++ [a]).
Proof.
  unfold swap_first_last.
  change (a :: t ++ [b]) with ((a :: t) ++ [b]) at 1.
  rewrite last_snoc. cbn [lookup list_lookup].
  cbn [length]. rewrite Nat.sub_succ, Nat.sub_0_r.
  cbn [insert list_insert]. rewrite length_app. cbn [length].
  replace (length t + 1) with (S (length t)) by lia.
  change (<[S (length t):=a]> (b :: t ++ [b])) with (b :: <[length t:=a]> (t ++ [b])).
  rewrite insert_app_r_alt by lia. rewrite Nat.sub_diag. reflexivity.
Qed.

Lemma list_ends (q : list num) :
  q = [] \/ (exists a, q = [a]) \/ (exists a t b, q = a :: t ++ [b]).
Proof.
  destruct q as [|a t]; [now left|right].
  destruct t as [|b t] using rev_ind; [left; eauto|right; eauto].
Qed.

Lemma swap_first_last_length (q : list num) :
  q <> [] -> exists q', swap_first_last q = Return q' /\ length q' = length q.
Proof.
  intros Hne. destruct (list_ends q) as [-> | [[a ->] | (a & t & b & ->)]].
  - now destruct Hne.
  - exists [a]. split; reflexivity.
  - exists (b :: t ++ [a]). split; [apply swap_first_last_snoc|].
    cbn. now rewrite !length_app.
Qed.

(** X1: The exchange undoes itself: whenever it returns, a second exchange
    returns the array it started from. *)
Theorem swap_first_last_involutive (q q' : list num) :
  swap_first_last q = Return q' -> swap_first_last q' = Return q.
Proof.
  destruct (list_ends q) as [-> | [[a ->] | (a & t & b & ->)]].
  - discriminate.
  - intros [= <-]. reflexivity.
  - rewrite swap_first_last_snoc. intros [= <-]. apply swap_first_last_snoc.
Qed.

Lemma swap_first_last_involutive_witness :
  swap_first_last [NInt 4; NInt 2; NInt 3; NInt 1]
    = Return [NInt 1; NInt 2; NInt 3; NInt 4].
Proof.
  apply (swap_first_last_involutive [NInt 1; NInt 2; NInt 3; NInt 4]). reflexivity.
Defined.

(** X2: On an array that is not empty the exchange returns an array of the same
    length with the same entries: the first and the last have changed
    places and the entries between them are where they were. *)
Theorem swap_first_last_exchange (q : list num) :
  q <> [] ->
  exists q', swap_first_last q = Return q' /\
             length q' = length q /\
             q' ≡ₚ q /\
             q' !! 0 = last q /\
             last q' = q !! 0 /\
             (forall i, 0 < i < length q - 1 -> q' !! i = q !! i).
Proof.
  intros Hne. destruct (list_ends q) as [-> | [[a ->] | (a & t & b & ->)]].
  - now destruct Hne.
  - exists [a]. repeat split; reflexivity.
  - exists (b :: t ++ [a]). split; [apply swap_first_last_snoc|].
    split; [cbn; rewrite !length_app; reflexivity|].
    split.
    { rewrite (Permutation_app_comm t [a]), (Permutation_app_comm t [b]). cbn.
      apply perm_swap. }
    split.
    { cbn. change (a :: t ++ [b]) with ((a :: t) ++ [b]). now rewrite last_snoc. }
    split.
    { change (b :: t ++ [a]) with ((b :: t) ++ [a]). now rewrite last_snoc. }
    intros i Hi. cbn [length] in Hi. rewrite length_app in Hi. cbn [length] in Hi.
    destruct i as [|i]; [lia|]. cbn [lookup list_lookup].
    change ((t ++ [a]) !! i = (t ++ [b]) !! i).
    rewrite !lookup_app_l by lia. reflexivity.
Qed.

Lemma swap_first_last_exchange_witness :
  exists q', swap_first_last [NInt 1; NFloat 0.5; NInt 3] = Return q' /\
             q' !! 0 = Some (NInt 3) /\ q' !! 1 = Some (NFloat 0.5) /\
             q' !! 2 = Some (NInt 1).
Proof.
  destruct (swap_first_last_exchange [NInt 1; NFloat 0.5; NInt 3])
    as (q' & Hq & _); [discriminate|].
  exists q'. split; [exact Hq|].
  vm_compute in Hq. injection Hq as <-. repeat split; reflexivity.
Defined.

(** ** [load_transformation] on an entry of numbers *)

Lemma bind_Return_r {A : Type} (c : outcome A) : bind c Return = c.
Proof. now destruct c. Qed.

Lemma to_float_cast (all : list num) (x : num) : to_float (cast all x) = to_float x.
Proof. unfold cast. now destruct (existsb is_float all). Qed.

Lemma to_float_promote1 (xs : list num) : to_float <$> promote1 xs = to_float <$> xs.
Proof.
  unfold promote1. rewrite <- list_fmap_compose. apply list_fmap_ext.
  intros i x _. apply to_float_cast.
Qed.

Lemma from_quat_as_matrix_ext (q1 q2 : list num) :
  to_float <$> q1 = to_float <$> q2 -> from_quat_as_matrix q1 = from_quat_as_matrix q2.
Proof. unfold from_quat_as_matrix. now intros ->. Qed.

Lemma from_quat_as_matrix_length (q : list num) :
  length q <> 4 -> from_quat_as_matrix q = Raise ValueError.
Proof.
  unfold from_quat_as_matrix.
  destruct q as [|x [|y [|z [|w [|v q]]]]]; cbn; intros H; try reflexivity.
  now destruct H.
Qed.

Lemma from_quat_as_matrix_cases (q : list num) :
  from_quat_as_matrix q = Raise ValueError \/ exists R, from_quat_as_matrix q = Return R.
Proof.
  unfold from_quat_as_matrix.
  destruct (to_float <$> q) as [|x [|y [|z [|w [|]]]]]; auto.
  destruct (PrimFloat.eqb _ _); eauto.
Qed.

(** The exchange commutes with a change of every entry, such as the cast to
    the dtype of the array. *)
Lemma swap_first_last_fmap (f : num -> num) (q : list num) :
  swap_first_last (f <$> q) = (q' <- swap_first_last q ;; Return (f <$> q')).
Proof.
  destruct (list_ends q) as [-> | [[a ->] | (a & t & b & ->)]]; try reflexivity.
  rewrite fmap_cons, fmap_app. cbn [fmap list_fmap].
  rewrite !swap_first_last_snoc. cbn [bind]. now rewrite fmap_cons, fmap_app.
Qed.

(** What [load_transformation] computes once the entry is found to hold a
    flat list of numbers in each of its two fields. *)
Lemma load_transformation_numeric (m e : gmap string yaml) (key : string)
    (pl rl : list yaml) (ps q : list num) :
  m !! key = Some (YMap e) ->
  e !! "Position" = Some (YSeq pl) -> e !! "Rotation" = Some (YSeq rl) ->
  as_nums pl = Return ps -> as_nums rl = Return q ->
  load_transformation (YMap m) key
  = (q' <- swap_first_last q ;;
     R <- from_quat_as_matrix q' ;;
     T <- assign_block3 (eye 4) R ;;
     assign_col3 T 3 (to_float <$> ps)).
Proof.
  intros Hkey Hp Hr Hps Hq. unfold load_transformation.
  rewrite (contains_present _ _ _ Hkey), (getitem_present _ _ _ Hkey). cbn [bind negb].
  rewrite (contains_present _ _ _ Hp), (contains_present _ _ _ Hr). cbn [bind negb].
  rewrite (getitem_present _ _ _ Hp), (getitem_present _ _ _ Hr). cbn [bind].
  unfold np_array, np_array1. rewrite Hps, Hq. cbn [bind].
  rewrite to_float_promote1. unfold promote1. rewrite swap_first_last_fmap.
  destruct (swap_first_last q) as [q'| |]; cbn [bind]; try reflexivity.
  rewrite (from_quat_as_matrix_ext (cast q <$> q') q').
  - destruct (from_quat_as_matrix q') as [R| |]; cbn [bind]; try reflexivity.
    destruct (assign_block3 (eye 4) R) as [T| |]; cbn [bind]; try reflexivity.
    apply bind_Return_r.
  - rewrite <- list_fmap_compose. apply list_fmap_ext. intros i x _. apply to_float_cast.
Qed.

Lemma embed_rotation_position (R : list (list float)) (q : list num) (p0 p1 p2 : float) :
  from_quat_as_matrix q = Return R ->
  (T <- assign_block3 (eye 4) R ;; assign_col3 T 3 [p0; p1; p2])
  = Return (homogeneous R [p0; p1; p2]).
Proof.
  intros HR.
  destruct (from_quat_as_matrix_shape _ _ HR)
    as (r00 & r01 & r02 & r10 & r11 & r12 & r20 & r21 & r22 & ->).
  reflexivity.
Qed.

(** X4: For an entry with three numbers as [Position] and four numbers
    [w, x, y, z] as [Rotation], [load_transformation] hands the array
    [z, x, y, w] to the conversion, and returns its matrix with the
    position as fourth column over the row [0, 0, 0, 1]; it raises what the
    conversion raises. *)
Theorem load_transformation_well_formed (m e : gmap string yaml) (key : string)
    (pl rl : list yaml) (p0 p1 p2 w x y z : num) :
  m !! key = Some (YMap e) ->
  e !! "Position" = Some (YSeq pl) -> e !! "Rotation" = Some (YSeq rl) ->
  as_nums pl = Return [p0; p1; p2] -> as_nums rl = Return [w; x; y; z] ->
  load_transformation (YMap m) key
  = (R <- from_quat_as_matrix [z; x; y; w] ;;
     Return (homogeneous R [to_float p0; to_float p1; to_float p2])).
Proof.
  intros Hkey Hp Hr Hps Hq.
  rewrite (load_transformation_numeric _ _ _ _ _ _ _ Hkey Hp Hr Hps Hq).
  rewrite swap_first_last_four. cbn [bind fmap list_fmap].
  destruct (from_quat_as_matrix [z; x; y; w]) as [R| |] eqn:HR; cbn [bind];
    try reflexivity.
  exact (embed_rotation_position _ _ _ _ _ HR).
Qed.

Lemma load_transformation_well_formed_witness :
  load_transformation
    (YMap {[ "lidar" := YMap {[ "Position" := YSeq [YFloat 0.5; YInt 2; YInt 3];
                                "Rotation" := YSeq [YInt 0; YInt 0; YInt 0; YInt 2] ]} ]})
    "lidar"
  = (R <- from_quat_as_matrix [NInt 2; NInt 0; NInt 0; NInt 0] ;;
     Return (homogeneous R [0.5%float; 2%float; 3%float])).
Proof.
  apply (load_transformation_well_formed
           {[ "lidar" := YMap {[ "Position" := YSeq [YFloat 0.5; YInt 2; YInt 3];
                                 "Rotation" := YSeq [YInt 0; YInt 0; YInt 0; YInt 2] ]} ]}
           {[ "Position" := YSeq [YFloat 0.5; YInt 2; YInt 3];
              "Rotation" := YSeq [YInt 0; YInt 0; YInt 0; YInt 2] ]}
           "lidar"
           [YFloat 0.5; YInt 2; YInt 3] [YInt 0; YInt 0; YInt 0; YInt 2]
           (NFloat 0.5) (NInt 2) (NInt 3) (NInt 0) (NInt 0) (NInt 0) (NInt 2));
    vm_compute; reflexivity.
Defined.

(** ** [load_transformation]: arrays of the wrong length *)

(** X5: An empty [Rotation] list makes the exchange of first and last entry
    fail: [IndexError], whatever numbers [Position] holds. *)
Theorem load_transformation_empty_rotation (m e : gmap string yaml) (key : string)
    (pl : list yaml) (ps : list num) :
  m !! key = Some (YMap e) ->
  e !! "Position" = Some (YSeq pl) -> e !! "Rotation" = Some (YSeq []) ->
  as_nums pl = Return ps ->
  load_transformation (YMap m) key = Raise IndexError.
Proof.
  intros Hkey Hp Hr Hps.
  now rewrite (load_transformation_numeric _ _ _ _ [] ps [] Hkey Hp Hr Hps).
Qed.

Lemma load_transformation_empty_rotation_witness :
  load_transformation
    (YMap {[ "lidar" := YMap {[ "Position" := YSeq [YInt 1; YInt 2; YInt 3];
                                "Rotation" := YSeq [] ]} ]})
    "lidar" = Raise IndexError.
Proof.
  apply (load_transformation_empty_rotation
           {[ "lidar" := YMap {[ "Position" := YSeq [YInt 1; YInt 2; YInt 3];
                                 "Rotation" := YSeq [] ]} ]}
           {[ "Position" := YSeq [YInt 1; YInt 2; YInt 3]; "Rotation" := YSeq [] ]}
           "lidar" [YInt 1; YInt 2; YInt 3] [NInt 1; NInt 2; NInt 3]);
    vm_compute; reflexivity.
Defined.

(** X6: A [Rotation] list of numbers that has entries, but not four of them, is
    refused with [ValueError], whatever numbers [Position] holds. *)
Theorem load_transformation_rotation_length (m e : gmap string yaml) (key : string)
    (pl rl : list yaml) (ps q : list num) :
  m !! key = Some (YMap e) ->
  e !! "Position" = Some (YSeq pl) -> e !! "Rotation" = Some (YSeq rl) ->
  as_nums pl = Return ps -> as_nums rl = Return q ->
  q <> [] -> length q <> 4 ->
  load_transformation (YMap m) key = Raise ValueError.
Proof.
  intros Hkey Hp Hr Hps Hq Hne Hlen.
  rewrite (load_transformation_numeric _ _ _ _ _ _ _ Hkey Hp Hr Hps Hq).
  destruct (swap_first_last_length q Hne) as (q' & -> & Hlen'). cbn [bind].
  rewrite from_quat_as_matrix_length by congruence. reflexivity.
Qed.

Lemma load_transformation_rotation_length_witness :
  load_transformation
    (YMap {[ "lidar" := YMap {[ "Position" := YSeq [YInt 1; YInt 2; YInt 3];
                                "Rotation" := YSeq [YInt 0; YInt 0; YInt 1] ]} ]})
    "lidar" = Raise ValueError.
Proof.
  apply (load_transformation_rotation_length
           {[ "lidar" := YMap {[ "Position" := YSeq [YInt 1; YInt 2; YInt 3];
                                 "Rotation" := YSeq [YInt 0; YInt 0; YInt 1] ]} ]}
           {[ "Position" := YSeq [YInt 1; YInt 2; YInt 3];
              "Rotation" := YSeq [YInt 0; YInt 0; YInt 1] ]}
           "lidar" [YInt 1; YInt 2; YInt 3] [YInt 0; YInt 0; YInt 1]
           [NInt 1; NInt 2; NInt 3] [NInt 0; NInt 0; NInt 1]);
    try (vm_compute; reflexivity); discriminate.
Defined.

Lemma from_quat_as_matrix_zero (w x y z : num) :
  zero_num w -> zero_num x -> zero_num y -> zero_num z ->
  from_quat_as_matrix [z; x; y; w] = Raise ValueError.
Proof.
  intros [-> | [-> | ->]] [-> | [-> | ->]] [-> | [-> | ->]] [-> | [-> | ->]];
    vm_compute; reflexivity.
Qed.

(** X7: The quaternion with four zero components, written as integers or as
    floats, is refused with [ValueError]. *)
Theorem load_transformation_zero_quaternion (m e : gmap string yaml) (key : string)
    (pl rl : list yaml) (p0 p1 p2 w x y z : num) :
  m !! key = Some (YMap e) ->
  e !! "Position" = Some (YSeq pl) -> e !! "Rotation" = Some (YSeq rl) ->
  as_nums pl = Return [p0; p1; p2] -> as_nums rl = Return [w; x; y; z] ->
  zero_num w -> zero_num x -> zero_num y -> zero_num z ->
  load_transformation (YMap m) key = Raise ValueError.
Proof.
  intros Hkey Hp Hr Hps Hq Hw Hx Hy Hz.
  rewrite (load_transformation_numeric _ _ _ _ _ _ _ Hkey Hp Hr Hps Hq).
  rewrite swap_first_last_four. cbn [bind].
  now rewrite (from_quat_as_matrix_zero w x y z).
Qed.

Lemma load_transformation_zero_quaternion_witness :
  load_transformation
    (YMap {[ "lidar" := YMap {[ "Position" := YSeq [YInt 1; YInt 2; YInt 3];
                                "Rotation" := YSeq [YInt 0; YFloat 0; YFloat (-0); YInt 0] ]} ]})
    "lidar" = Raise ValueError.
Proof.
  apply (load_transformation_zero_quaternion
           {[ "lidar" := YMap {[ "Position" := YSeq [YInt 1; YInt 2; YInt 3];
                                 "Rotation" := YSeq [YInt 0; YFloat 0; YFloat (-0); YInt 0] ]} ]}
           {[ "Position" := YSeq [YInt 1; YInt 2; YInt 3];
              "Rotation" := YSeq [YInt 0; YFloat 0; YFloat (-0); YInt 0] ]}
           "lidar" [YInt 1; YInt 2; YInt 3] [YInt 0; YFloat 0; YFloat (-0); YInt 0]
           (NInt 1) (NInt 2) (NInt 3) (NInt 0) (NFloat 0) (NFloat (-0)) (NInt 0));
    try (vm_compute; reflexivity); unfold zero_num; auto.
Defined.

(** X8: A [Position] list with one number is not refused: the number is
    repeated down the translation column. *)
Theorem load_transformation_position_broadcast (m e : gmap string yaml) (key : string)
    (pl rl : list yaml) (p w x y z : num) :
  m !! key = Some (YMap e) ->
  e !! "Position" = Some (YSeq pl) -> e !! "Rotation" = Some (YSeq rl) ->
  as_nums pl = Return [p] -> as_nums rl = Return [w; x; y; z] ->
  load_transformation (YMap m) key
  = (R <- from_quat_as_matrix [z; x; y; w] ;;
     Return (homogeneous R [to_float p; to_float p; to_float p])).
Proof.
  intros Hkey Hp Hr Hps Hq.
  rewrite (load_transformation_numeric _ _ _ _ _ _ _ Hkey Hp Hr Hps Hq).
  rewrite swap_first_last_four. cbn [bind fmap list_fmap].
  destruct (from_quat_as_matrix [z; x; y; w]) as [R| |] eqn:HR; cbn [bind];
    try reflexivity.
  destruct (from_quat_as_matrix_shape _ _ HR)
    as (r00 & r01 & r02 & r10 & r11 & r12 & r20 & r21 & r22 & ->).
  reflexivity.
Qed.

Lemma load_transformation_position_broadcast_witness :
  load_transformation
    (YMap {[ "lidar" := YMap {[ "Position" := YSeq [YInt 5];
                                "Rotation" := YSeq [YInt 1; YInt 0; YInt 0; YInt 0] ]} ]})
    "lidar"
  = Return [ [1%float; 0%float; 0%float; 5%float];
             [0%float; 1%float; 0%float; 5%float];
             [0%float; 0%float; 1%float; 5%float];
             [0%float; 0%float; 0%float; 1%float] ].
Proof.
  rewrite (load_transformation_position_broadcast
             {[ "lidar" := YMap {[ "Position" := YSeq [YInt 5];
                                   "Rotation" := YSeq [YInt 1; YInt 0; YInt 0; YInt 0] ]} ]}
             {[ "Position" := YSeq [YInt 5];
                "Rotation" := YSeq [YInt 1; YInt 0; YInt 0; YInt 0] ]}
             "lidar" [YInt 5] [YInt 1; YInt 0; YInt 0; YInt 0]
             (NInt 5) (NInt 1) (NInt 0) (NInt 0) (NInt 0));
    vm_compute; reflexivity.
Defined.

(** X9: A [Position] list of numbers with neither one nor three entries never
    gives a matrix: the call raises [ValueError], or [IndexError] when the
    [Rotation] list is empty. *)
Theorem load_transformation_position_length (m e : gmap string yaml) (key : string)
    (pl rl : list yaml) (ps q : list num) :
  m !! key = Some (YMap e) ->
  e !! "Position" = Some (YSeq pl) -> e !! "Rotation" = Some (YSeq rl) ->
  as_nums pl = Return ps -> as_nums rl = Return q ->
  length ps <> 1 -> length ps <> 3 ->
  load_transformation (YMap m) key
  = if bool_decide (q = []) then Raise IndexError else Raise ValueError.
Proof.
  intros Hkey Hp Hr Hps Hq H1 H3.
  rewrite (load_transformation_numeric _ _ _ _ _ _ _ Hkey Hp Hr Hps Hq).
  case_bool_decide as Hne; [now subst q|].
  destruct (swap_first_last_length q Hne) as (q' & -> & _). cbn [bind].
  destruct (from_quat_as_matrix_cases q') as [-> | [R HR]]; [reflexivity|].
  rewrite HR. cbn [bind].
  destruct (from_quat_as_matrix_shape _ _ HR)
    as (r00 & r01 & r02 & r10 & r11 & r12 & r20 & r21 & r22 & ->).
  change (assign_block3 (eye 4) [[r00; r01; r02]; [r10; r11; r12]; [r20; r21; r22]])
    with (Return [ [r00; r01; r02; 0%float]; [r10; r11; r12; 0%float];
                   [r20; r21; r22; 0%float]; [0%float; 0%float; 0%float; 1%float] ]).
  cbn [bind]. unfold assign_col3.
  destruct ps as [|a [|b [|c [|d ps]]]]; cbn in H1, H3 |- *; try reflexivity.
  - now destruct H1.
  - now destruct H3.
Qed.

Lemma load_transformation_position_length_witness :
  load_transformation
    (YMap {[ "lidar" := YMap {[ "Position" := YSeq [YInt 1; YInt 2];
                                "Rotation" := YSeq [YInt 1; YInt 0; YInt 0; YInt 0] ]} ]})
    "lidar" = Raise ValueError.
Proof.
  rewrite (load_transformation_position_length
             {[ "lidar" := YMap {[ "Position" := YSeq [YInt 1; YInt 2];
                                   "Rotation" := YSeq [YInt 1; YInt 0; YInt 0; YInt 0] ]} ]}
             {[ "Position" := YSeq [YInt 1; YInt 2];
                "Rotation" := YSeq [YInt 1; YInt 0; YInt 0; YInt 0] ]}
             "lidar" [YInt 1; YInt 2] [YInt 1; YInt 0; YInt 0; YInt 0]
             [NInt 1; NInt 2] [NInt 1; NInt 0; NInt 0; NInt 0]);
    try (vm_compute; reflexivity); discriminate.
Defined.

(** ** Documents and entries that are not dictionaries *)

(** X10: An empty file parses to [None].  On a document that is [None], a
    boolean or a number every loader raises: [TypeError] from the membership
    test or the subscript, [AttributeError] from [get]; only a request for
    no parameter at all returns, with the empty dictionary. *)
Theorem loaders_on_scalar_document (configs : yaml) (key : string)
    (keys : list string) :
  is_scalar configs = true ->
  load_transformation configs key = Raise TypeError /\
  load_camera_intrinsics configs = Raise TypeError /\
  load_ros_topic_names configs = Raise AttributeError /\
  load_parameters_from_yaml configs keys
  = match keys with
    | [] => Return (YMap ∅)
    | _ :: _ => Raise TypeError
    end.
Proof.
  intros H. destruct configs; try discriminate; destruct keys; repeat split; reflexivity.
Qed.

Lemma loaders_on_scalar_document_witness :
  load_transformation YNull "lidar" = Raise TypeError /\
  load_camera_intrinsics YNull = Raise TypeError /\
  load_ros_topic_names YNull = Raise AttributeError /\
  load_parameters_from_yaml YNull ["rate"] = Raise TypeError.
Proof. apply (loaders_on_scalar_document YNull "lidar" ["rate"]). reflexivity. Defined.

(** X11: An entry that is [None], a boolean or a number cannot be searched for
    its fields: [load_transformation] raises [TypeError], not
    [ValueError]. *)
Theorem load_transformation_scalar_entry (m : gmap string yaml) (key : string)
    (v : yaml) :
  m !! key = Some v -> is_scalar v = true ->
  load_transformation (YMap m) key = Raise TypeError.
Proof.
  intros H Hv. unfold load_transformation.
  rewrite (contains_present _ _ _ H), (getitem_present _ _ _ H).
  destruct v; try discriminate; reflexivity.
Qed.

Lemma load_transformation_scalar_entry_witness :
  load_transformation (YMap {[ "lidar" := YInt 3 ]}) "lidar" = Raise TypeError.
Proof.
  apply (load_transformation_scalar_entry {[ "lidar" := YInt 3 ]} "lidar" (YInt 3));
    reflexivity.
Defined.

(** X12: An entry that is a list or a string passes the two presence tests when
    it has both names as elements, or as substrings; the subscript then
    raises [TypeError].  Without one of the names it is refused with
    [ValueError].  It never gives a matrix. *)
Theorem load_transformation_sequence_entry (m : gmap string yaml) (key : string) :
  (forall l : list yaml,
     m !! key = Some (YSeq l) ->
     load_transformation (YMap m) key
     = if existsb (Py.is_str "Position") l && existsb (Py.is_str "Rotation") l
       then Raise TypeError else Raise ValueError) /\
  (forall s : string,
     m !! key = Some (YStr s) ->
     load_transformation (YMap m) key
     = if Py.str_contains "Position" s && Py.str_contains "Rotation" s
       then Raise TypeError else Raise ValueError).
Proof.
  split.
  - intros l H. unfold load_transformation.
    rewrite (contains_present _ _ _ H), (getitem_present _ _ _ H). cbn [bind negb Py.contains].
    destruct (existsb (Py.is_str "Position") l); [|reflexivity]. cbn [negb andb].
    destruct (existsb (Py.is_str "Rotation") l); reflexivity.
  - intros s H. unfold load_transformation.
    rewrite (contains_present _ _ _ H), (getitem_present _ _ _ H). cbn [bind negb Py.contains].
    destruct (Py.str_contains "Position" s); [|reflexivity]. cbn [negb andb].
    destruct (Py.str_contains "Rotation" s); reflexivity.
Qed.

Lemma load_transformation_sequence_entry_witness :
  load_transformation (YMap {[ "lidar" := YSeq [YStr "Position"; YStr "Rotation"] ]}) "lidar"
    = Raise TypeError /\
  load_transformation (YMap {[ "lidar" := YStr "no Rotation given" ]}) "lidar"
    = Raise ValueError.
Proof.
  split.
  - rewrite (proj1 (load_transformation_sequence_entry
                      {[ "lidar" := YSeq [YStr "Position"; YStr "Rotation"] ]} "lidar")
               [YStr "Position"; YStr "Rotation"]); reflexivity.
  - rewrite (proj2 (load_transformation_sequence_entry
                      {[ "lidar" := YStr "no Rotation given" ]} "lidar")
               "no Rotation given"); reflexivity.
Defined.

(** ** What the loaders read and what they ignore *)



Ltac same_field H f :=
  rewrite (H f) by (unfold required_fields; repeat constructor).

(** X14: [load_camera_intrinsics] reads the eleven required fields of the
    [camera] block and nothing else: blocks that agree on them give the same
    result. *)
Theorem load_camera_intrinsics_only_required (m m' cam cam' : gmap string yaml) :
  m !! "camera" = Some (YMap cam) -> m' !! "camera" = Some (YMap cam') ->
  (forall f, f ∈ required_fields -> cam !! f = cam' !! f) ->
  load_camera_intrinsics (YMap m) = load_camera_intrinsics (YMap m').
Proof.
  intros Hcam Hcam' H. unfold load_camera_intrinsics, camera_field.
  rewrite (getitem_present _ _ _ Hcam), (getitem_present _ _ _ Hcam').
  cbn [bind Py.getitem].
  same_field H "fx". same_field H "fy". same_field H "cx". same_field H "cy".
  same_field H "k1". same_field H "k2". same_field H "k3".
  same_field H "p1". same_field H "p2".
  same_field H "image_width". same_field H "image_height".
  reflexivity.
Qed.

(** X15: [load_ros_topic_names] reads the three fields of the [topics] block and
    cannot tell a field that is absent from one that is [None]: blocks whose
    three fields agree up to that give the same result. *)
Theorem load_ros_topic_names_only_topics (m m' t t' : gmap string yaml) :
  m !! "topics" = Some (YMap t) -> m' !! "topics" = Some (YMap t') ->
  (forall f, f ∈ ["image"; "tf"; "event"] ->
             default YNull (t !! f) = default YNull (t' !! f)) ->
  load_ros_topic_names (YMap m) = load_ros_topic_names (YMap m').
Proof.
  intros Ht Ht' H. unfold load_ros_topic_names. cbn [Py.get].
  rewrite Ht, Ht'. cbn [default bind Py.get id].
  rewrite (H "image"), (H "tf"), (H "event") by repeat constructor.
  reflexivity.
Qed.

Lemma load_ros_topic_names_only_topics_witness :
  load_ros_topic_names
    (YMap {[ "topics" := YMap {[ "image" := YStr "/cam"; "tf" := YNull;
                                 "depth" := YStr "/depth" ]} ]})
  = load_ros_topic_names
      (YMap {[ "topics" := YMap {[ "image" := YStr "/cam" ]}; "rate" := YInt 30 ]}).
Proof.
  apply (load_ros_topic_names_only_topics
           {[ "topics" := YMap {[ "image" := YStr "/cam"; "tf" := YNull;
                                  "depth" := YStr "/depth" ]} ]}
           {[ "topics" := YMap {[ "image" := YStr "/cam" ]}; "rate" := YInt 30 ]}
           {[ "image" := YStr "/cam"; "tf" := YNull; "depth" := YStr "/depth" ]}
           {[ "image" := YStr "/cam" ]}); try (vm_compute; reflexivity).
  intros f Hf.
  repeat (apply elem_of_cons in Hf as [-> | Hf]; [vm_compute; reflexivity|]).
  now apply elem_of_nil in Hf.
Defined.

Lemma extracted_eq (m m' : gmap string yaml) (keys keys' : list string) :
  (forall k, k ∈ keys <-> k ∈ keys') ->
  (forall k, k ∈ keys -> default YNull (m !! k) = default YNull (m' !! k)) ->
  foldl (fun p k => <[k := default YNull (m !! k)]> p) (∅ : gmap string yaml) keys
  = foldl (fun p k => <[k := default YNull (m' !! k)]> p) ∅ keys'.
Proof.
  intros Hkeys Hval. apply map_eq. intros k. rewrite !lookup_extracted.
  destruct (decide (k ∈ keys)) as [Hin|Hnin].
  - rewrite decide_True by now apply Hkeys. now rewrite Hval.
  - rewrite decide_False; [reflexivity|]. intros Hin. now apply Hnin, Hkeys.
Qed.

(** X16: [load_parameters_from_yaml] reads the requested keys and nothing else,
    and cannot tell a key that is absent from one whose value is [None]:
    documents that agree on the requested keys up to that give the same
    result. *)
Theorem load_parameters_from_yaml_only_requested (m m' : gmap string yaml)
    (keys : list string) :
  (forall k, k ∈ keys -> default YNull (m !! k) = default YNull (m' !! k)) ->
  load_parameters_from_yaml (YMap m) keys = load_parameters_from_yaml (YMap m') keys.
Proof.
  intros H. unfold load_parameters_from_yaml. rewrite !extract_parameters_map.
  now rewrite (extracted_eq m m' keys keys).
Qed.

Lemma load_parameters_from_yaml_only_requested_witness :
  load_parameters_from_yaml (YMap {[ "rate" := YInt 30; "gain" := YNull ]}) ["rate"; "gain"]
  = load_parameters_from_yaml (YMap {[ "rate" := YInt 30; "mode" := YStr "auto" ]})
      ["rate"; "gain"].
Proof.
  apply (load_parameters_from_yaml_only_requested
           {[ "rate" := YInt 30; "gain" := YNull ]}
           {[ "rate" := YInt 30; "mode" := YStr "auto" ]} ["rate"; "gain"]).
  intros k Hk.
  repeat (apply elem_of_cons in Hk as [-> | Hk]; [vm_compute; reflexivity|]).
  now apply elem_of_nil in Hk.
Defined.

(** X17: The result of [load_parameters_from_yaml] depends on which keys are
    requested, not on their order nor on how often each is given: two key
    lists with the same elements give the same value, or dictionaries with
    the same entries. *)
Theorem load_parameters_from_yaml_same_keys (m : gmap string yaml)
    (keys keys' : list string) :
  (forall k, k ∈ keys <-> k ∈ keys') ->
  load_parameters_from_yaml (YMap m) keys = load_parameters_from_yaml (YMap m) keys'.
Proof.
  intros H. unfold load_parameters_from_yaml. rewrite !extract_parameters_map.
  now rewrite (extracted_eq m m keys keys').
Qed.

Lemma load_parameters_from_yaml_same_keys_witness :
  load_parameters_from_yaml (YMap {[ "rate" := YInt 30 ]}) ["rate"; "gain"; "rate"]
  = load_parameters_from_yaml (YMap {[ "rate" := YInt 30 ]}) ["gain"; "rate"].
Proof.
  apply (load_parameters_from_yaml_same_keys {[ "rate" := YInt 30 ]}
           ["rate"; "gain"; "rate"] ["gain"; "rate"]).
  intros k. rewrite !elem_of_cons, elem_of_nil. tauto.
Defined.

Lemma load_camera_intrinsics_only_required_witness :
  load_camera_intrinsics
    (YMap {[ "camera" := YMap {[ "fx" := YFloat 500.5; "model" := YStr "pinhole" ]};
             "rate" := YInt 30 ]})
  = load_camera_intrinsics (YMap {[ "camera" := YMap {[ "fx" := YFloat 500.5 ]} ]}).
Proof.
  apply (load_camera_intrinsics_only_required
           {[ "camera" := YMap {[ "fx" := YFloat 500.5; "model" := YStr "pinhole" ]};
              "rate" := YInt 30 ]}
           {[ "camera" := YMap {[ "fx" := YFloat 500.5 ]} ]}
           {[ "fx" := YFloat 500.5; "model" := YStr "pinhole" ]}
           {[ "fx" := YFloat 500.5 ]}); try (vm_compute; reflexivity).
  intros f Hf. unfold required_fields in Hf.
  repeat (apply elem_of_cons in Hf as [-> | Hf]; [vm_compute; reflexivity|]).
  now apply elem_of_nil in Hf.
Defined.

(** ** The dtype of the camera matrix *)

Lemma load_camera_intrinsics_arrays
    (m cam : gmap string yaml)
    (fx fy cx cy k1 k2 k3 p1 p2 : num) (image_width image_height : yaml) :
  m !! "camera" = Some (YMap cam) ->
  numeric_field cam "fx" fx -> numeric_field cam "fy" fy ->
  numeric_field cam "cx" cx -> numeric_field cam "cy" cy ->
  numeric_field cam "k1" k1 -> numeric_field cam "k2" k2 ->
  numeric_field cam "k3" k3 ->
  numeric_field cam "p1" p1 -> numeric_field cam "p2" p2 ->
  cam !! "image_width" = Some image_width ->
  cam !! "image_height" = Some image_height ->
  load_camera_intrinsics (YMap m)
    = Return (promote2 [ [fx; NInt 0; cx];
                         [NInt 0; fy; cy];
                         [NInt 0; NInt 0; NInt 1] ],
              promote1 [k1; k2; p1; p2; k3],
              (image_height, image_width)).
Proof.
  intros Hcam (vfx & Lfx & Nfx) (vfy & Lfy & Nfy) (vcx & Lcx & Ncx) (vcy & Lcy & Ncy)
         (vk1 & Lk1 & Nk1) (vk2 & Lk2 & Nk2) (vk3 & Lk3 & Nk3)
         (vp1 & Lp1 & Np1) (vp2 & Lp2 & Np2) Lw Lh.
  destruct (load_camera_intrinsics_cases m cam Hcam)
    as [(f & Hf & Hnone & _)
       |(fx' & fy' & cx' & cy' & k1' & k2' & k3' & p1' & p2' & w' & h' & Hall & ->)].
  - unfold required_fields in Hf.
    repeat (apply elem_of_cons in Hf as [-> | Hf]; [congruence|]).
    now apply elem_of_nil in Hf.
  - destruct Hall as (Hfx & Hfy & Hcx & Hcy & Hk1 & Hk2 & Hk3 & Hp1 & Hp2 & Hw & Hh).
    assert (fx' = vfx) as -> by congruence. assert (fy' = vfy) as -> by congruence.
    assert (cx' = vcx) as -> by congruence. assert (cy' = vcy) as -> by congruence.
    assert (k1' = vk1) as -> by congruence. assert (k2' = vk2) as -> by congruence.
    assert (k3' = vk3) as -> by congruence. assert (p1' = vp1) as -> by congruence.
    assert (p2' = vp2) as -> by congruence.
    assert (w' = image_width) as -> by congruence.
    assert (h' = image_height) as -> by congruence.
    unfold np_array2, np_array1. cbn [as_rows as_nums].
    rewrite Nfx, Nfy, Ncx, Ncy, Nk1, Nk2, Nk3, Np1, Np2. reflexivity.
Qed.

(** X18: When [fx], [fy], [cx] and [cy] are all integers the camera matrix is an
    integer array with these values unchanged; as soon as one of them is a
    float all nine entries are floats, the constants 0 and 1 included.  The
    distortion coefficients have no part in it. *)
Theorem load_camera_intrinsics_dtype
    (m cam : gmap string yaml)
    (fx fy cx cy k1 k2 k3 p1 p2 : num) (image_width image_height : yaml) :
  m !! "camera" = Some (YMap cam) ->
  numeric_field cam "fx" fx -> numeric_field cam "fy" fy ->
  numeric_field cam "cx" cx -> numeric_field cam "cy" cy ->
  numeric_field cam "k1" k1 -> numeric_field cam "k2" k2 ->
  numeric_field cam "k3" k3 ->
  numeric_field cam "p1" p1 -> numeric_field cam "p2" p2 ->
  cam !! "image_width" = Some image_width ->
  cam !! "image_height" = Some image_height ->
  exists distortion_coefficients,
    load_camera_intrinsics (YMap m)
    = Return (if existsb is_float [fx; fy; cx; cy]
              then [ [NFloat (to_float fx); NFloat 0; NFloat (to_float cx)];
                     [NFloat 0; NFloat (to_float fy); NFloat (to_float cy)];
                     [NFloat 0; NFloat 0; NFloat 1] ]
              else [ [fx; NInt 0; cx];
                     [NInt 0; fy; cy];
                     [NInt 0; NInt 0; NInt 1] ],
              distortion_coefficients,
              (image_height, image_width)).
Proof.
  intros Hcam Hfx Hfy Hcx Hcy Hk1 Hk2 Hk3 Hp1 Hp2 Hw Hh.
  rewrite (load_camera_intrinsics_arrays m cam fx fy cx cy k1 k2 k3 p1 p2
             image_width image_height) by assumption.
  eexists. f_equal. f_equal. f_equal.
  destruct fx, fy, cx, cy; reflexivity.
Qed.

Lemma load_camera_intrinsics_dtype_witness :
  exists distortion_coefficients,
    load_camera_intrinsics
      (YMap {[ "camera" :=
                 YMap {[ "fx" := YInt 500; "fy" := YInt 500;
                         "cx" := YInt 320; "cy" := YInt 240;
                         "k1" := YFloat 0.5; "k2" := YFloat 0.25; "k3" := YInt 0;
                         "p1" := YFloat 0.125; "p2" := YInt 1;
                         "image_width" := YInt 640; "image_height" := YInt 480 ]} ]})
    = Return ([ [NInt 500; NInt 0; NInt 320];
                [NInt 0; NInt 500; NInt 240];
                [NInt 0; NInt 0; NInt 1] ],
              distortion_coefficients,
              (YInt 480, YInt 640)).
Proof.
  destruct (load_camera_intrinsics_dtype
           {[ "camera" :=
                YMap {[ "fx" := YInt 500; "fy" := YInt 500;
                        "cx" := YInt 320; "cy" := YInt 240;
                        "k1" := YFloat 0.5; "k2" := YFloat 0.25; "k3" := YInt 0;
                        "p1" := YFloat 0.125; "p2" := YInt 1;
                        "image_width" := YInt 640; "image_height" := YInt 480 ]} ]}
           {[ "fx" := YInt 500; "fy" := YInt 500;
              "cx" := YInt 320; "cy" := YInt 240;
              "k1" := YFloat 0.5; "k2" := YFloat 0.25; "k3" := YInt 0;
              "p1" := YFloat 0.125; "p2" := YInt 1;
              "image_width" := YInt 640; "image_height" := YInt 480 ]}
           (NInt 500) (NInt 500) (NInt 320) (NInt 240)
           (NFloat 0.5) (NFloat 0.25) (NInt 0) (NFloat 0.125) (NInt 1)
           (YInt 640) (YInt 480)) as [D HD];
    [ reflexivity
    | eexists; split; reflexivity ..
    | reflexivity
    | reflexivity
    | ].
  exists D. rewrite HD. reflexivity.
Defined.

(** ** Witnesses for the edges of the error handling *)

Lemma load_ros_topic_names_not_a_block_witness :
  load_ros_topic_names (YMap {[ "topics" := YNull ]}) = Raise AttributeError.
Proof.
  apply (load_ros_topic_names_not_a_block {[ "topics" := YNull ]} YNull);
    [reflexivity | discriminate].
Defined.

Lemma load_camera_intrinsics_not_a_block_witness :
  load_camera_intrinsics (YMap {[ "camera" := YSeq [YInt 500; YInt 500] ]})
    = Raise TypeError.
Proof.
  apply (load_camera_intrinsics_not_a_block
           {[ "camera" := YSeq [YInt 500; YInt 500] ]} (YSeq [YInt 500; YInt 500]));
    [reflexivity | discriminate].
Defined.

Lemma swap_first_last_scalar_last_iff_witness :
  swap_first_last [NInt 1; NInt 0; NInt 0; NInt 0]
    = Return (scalar_last_of_scalar_first [NInt 1; NInt 0; NInt 0; NInt 0]) /\
  swap_first_last [NInt 0; NInt 1; NInt 0; NInt 0]
    <> Return (scalar_last_of_scalar_first [NInt 0; NInt 1; NInt 0; NInt 0]).
Proof.
  split.
  - apply (proj2 (swap_first_last_scalar_last_iff (NInt 1) (NInt 0) (NInt 0) (NInt 0))).
    split; reflexivity.
  - intros H.
    apply (proj1 (swap_first_last_scalar_last_iff (NInt 0) (NInt 1) (NInt 0) (NInt 0)))
      in H as [H _].
    discriminate.
Defined.
